(** * The NNI quickstart trial script and its reporting protocol

    The repository holds two notebooks.  The trial notebook is a PyTorch
    training script that fetches hyperparameters with
    [nni.get_next_parameter], trains for five epochs and reports the test
    accuracy of every epoch with [nni.report_intermediate_result] and the
    last one with [nni.report_final_result].  [main.ipynb] configures and
    launches the experiment.

    The trial script is embedded as a program over the three NNI calls it
    makes.  The tensor framework (network construction, one optimisation
    step, the forward pass, the loss) is external and enters as the fields
    of a class.  Metric values are Python floats; they are modelled as exact
    rationals. *)

From stdpp Require Import gmap strings list.
From Stdlib Require Import QArith.

Local Open Scope Q_scope.

(** ** Python values and exceptions *)

(** The values stored in the [params] dict: ints and floats. *)
Inductive PyVal : Type :=
| PyInt (z : Z)
| PyFloat (q : Q).

(** The exceptions a run of the trial script can end with. *)
Inductive Error : Type :=
| ZeroDivisionError
| NameError (name : string)
| KeyError (key : string)
| DuplicateFinalReport.

(** [d.update(other)]: every key of [other] overrides, the rest of [d] stays. *)
Definition update (d other : gmap string PyVal) : gmap string PyVal :=
  other ∪ d.

(** [d[key]]: raises [KeyError] on a missing key. *)
Definition getitem (d : gmap string PyVal) (key : string) : Error + PyVal :=
  match d !! key with
  | Some v => inr v
  | None => inl (KeyError key)
  end.

(** [a / n] and [a /= n] with an int divisor: zero raises. *)
Definition truediv (a : Q) (n : nat) : Error + Q :=
  match n with
  | O => inl ZeroDivisionError
  | S _ => inr (a / inject_Z (Z.of_nat n))
  end.

(** ** Programs over the NNI trial API *)

(** A trial program: it returns, raises, or makes one of the three NNI calls
    and goes on with the call's result. *)
Inductive Prog (R : Type) : Type :=
| Ret (r : R)
| Raise (e : Error)
| GetNextParameter (k : gmap string PyVal -> Prog R)
| ReportIntermediate (v : Q) (k : Prog R)
| ReportFinal (v : Q) (k : Prog R).

Arguments Ret {R} r.
Arguments Raise {R} e.
Arguments GetNextParameter {R} k.
Arguments ReportIntermediate {R} v k.
Arguments ReportFinal {R} v k.

Fixpoint bind {A B : Type} (p : Prog A) (f : A -> Prog B) : Prog B :=
  match p with
  | Ret a => f a
  | Raise e => Raise e
  | GetNextParameter k => GetNextParameter (fun d => bind (k d) f)
  | ReportIntermediate v k => ReportIntermediate v (bind k f)
  | ReportFinal v k => ReportFinal v (bind k f)
  end.

Declare Scope prog_scope.
Delimit Scope prog_scope with prog.
Notation "x <- p ;; q" := (bind p (fun x => q))
  (at level 20, p at level 99, q at level 200, only parsing) : prog_scope.
Notation "p ;; q" := (bind p (fun _ => q))
  (at level 100, q at level 200, only parsing, right associativity)
  : prog_scope.

Module nni.
Definition get_next_parameter : Prog (gmap string PyVal) :=
  GetNextParameter Ret.
Definition report_intermediate_result (v : Q) : Prog unit :=
  ReportIntermediate v (Ret tt).
Definition report_final_result (v : Q) : Prog unit :=
  ReportFinal v (Ret tt).
End nni.

(** A Python expression that may raise, used as a statement of a program. *)
Definition lift {R : Type} (r : Error + R) : Prog R :=
  match r with
  | inl e => Raise e
  | inr v => Ret v
  end.

(** [for x in xs: body], threading the variables the body assigns. *)
Fixpoint for_each {A S : Type} (xs : list A) (body : A -> S -> Prog S) (s : S)
  : Prog S :=
  match xs with
  | [] => Ret s
  | x :: xs' => bind (body x s) (for_each xs' body)
  end.

(** [range(n)] *)
Definition range (n : nat) : list nat := seq 0 n.

(** The calls a program makes, in order. *)
Inductive Call : Type :=
| CallGetNextParameter
| CallReportIntermediate (v : Q)
| CallReportFinal (v : Q).

(** The call log and the outcome of a program when every NNI call returns and
    [get_next_parameter] returns [assignment]. *)
Fixpoint trace {R : Type} (assignment : gmap string PyVal) (p : Prog R)
  : list Call * (Error + R) :=
  match p with
  | Ret r => ([], inr r)
  | Raise e => ([], inl e)
  | GetNextParameter k =>
      let '(log, res) := trace assignment (k assignment) in
      (CallGetNextParameter :: log, res)
  | ReportIntermediate v k =>
      let '(log, res) := trace assignment k in
      (CallReportIntermediate v :: log, res)
  | ReportFinal v k =>
      let '(log, res) := trace assignment k in
      (CallReportFinal v :: log, res)
  end.

(** ** torch.utils.data.DataLoader *)

(** [DataLoader(dataset, batch_size=batch_size)]: no shuffling, the last
    batch is kept when it is short. *)
Record DataLoader (Sample : Type) : Type := mkDataLoader {
  dataset : list (Sample * nat);
  loader_batch_size : nat
}.

Arguments mkDataLoader {Sample} dataset loader_batch_size.
Arguments dataset {Sample} d.
Arguments loader_batch_size {Sample} d.

Fixpoint chunks {A : Type} (fuel bs : nat) (l : list A) : list (list A) :=
  match fuel, l with
  | _, [] => []
  | O, _ :: _ => []
  | S fuel', _ :: _ => take bs l :: chunks fuel' bs (drop bs l)
  end.

(** Iterating over a loader yields the batches [(X, y)] in dataset order. *)
Definition batches {Sample : Type} (dl : DataLoader Sample)
  : list (list Sample * list nat) :=
  map (fun b => (map fst b, map snd b))
      (chunks (length (dataset dl)) (loader_batch_size dl) (dataset dl)).

(** ** tensor helpers *)

(** First index of a maximal entry, from position [i] on, [best] so far. *)
Fixpoint argmax_from (i : nat) (best : nat * Q) (l : list Q) : nat :=
  match l with
  | [] => fst best
  | x :: l' =>
      if Qlt_le_dec (snd best) x then argmax_from (S i) (i, x) l'
      else argmax_from (S i) best l'
  end.

(** [t.argmax()] of a vector of logits. *)
Definition argmax (l : list Q) : nat :=
  match l with
  | [] => O
  | x :: l' => argmax_from 1 (O, x) l'
  end.

(** [(a == b).type(torch.float).sum().item()] as an exact count. *)
Fixpoint count_eq (a b : list nat) : Z :=
  match a, b with
  | x :: a', y :: b' => ((if Nat.eqb x y then 1 else 0) + count_eq a' b')%Z
  | _, _ => 0%Z
  end.

(** ** The trial-side runtime behind the three NNI calls

    The library that implements [nni.get_next_parameter],
    [nni.report_intermediate_result] and [nni.report_final_result] is not part
    of the repository; the trial script only calls it. *)
Module TrialRuntime.

(** Modelled from the spec: the TrialReport of section 3, whose
    implementation is missing from the sources.  An ordered sequence of
    intermediate metrics, terminated by at most one final metric; created
    empty when a trial starts. *)
Record TrialReport : Type := mkTrialReport {
  intermediates : list Q;
  final : option Q
}.

Definition new_report : TrialReport :=
  {| intermediates := []; final := None |}.

(** Modelled from the spec: whether the trial runs on its own (standalone)
    or inside a coordinated experiment that has delivered an assignment
    (section 4.2); the runtime that knows which is missing from the
    sources. *)
Inductive Mode : Type :=
| Standalone
| Coordinated (assignment : gmap string PyVal).

(** Modelled from the spec: [get_next_assignment] of section 4.2, missing
    from the sources.  Outside a coordinated run it returns the empty
    mapping; inside one it returns the delivered assignment. *)
Definition get_next_assignment (m : Mode) : Error + gmap string PyVal :=
  match m with
  | Standalone => inr ∅
  | Coordinated assignment => inr assignment
  end.

(** Modelled from the spec: [report_intermediate] of section 4.3, missing
    from the sources.  It appends to the trial's report; a sealed report is
    immutable (section 3), and outside a coordinated run the call is a
    no-op (section 7). *)
Definition report_intermediate (m : Mode) (value : Q) (r : TrialReport)
  : TrialReport * (Error + unit) :=
  match m, final r with
  | Coordinated _, None =>
      ({| intermediates := intermediates r ++ [value]; final := None |},
       inr tt)
  | _, _ => (r, inr tt)
  end.

(** Modelled from the spec: [report_final] of section 4.3, missing from the
    sources.  It seals the report with one final value; a further call is
    the error [DuplicateFinalReport]; outside a coordinated run the call
    is a no-op (section 7). *)
Definition report_final (m : Mode) (value : Q) (r : TrialReport)
  : TrialReport * (Error + unit) :=
  match m, final r with
  | Coordinated _, None =>
      ({| intermediates := intermediates r; final := Some value |}, inr tt)
  | Coordinated _, Some _ => (r, inl DuplicateFinalReport)
  | Standalone, _ => (r, inr tt)
  end.

(** A program run against the runtime: every call is answered by the
    operation above, and an error of a call ends the program. *)
Fixpoint run {R : Type} (m : Mode) (p : Prog R) (r : TrialReport)
  : TrialReport * (Error + R) :=
  match p with
  | Ret x => (r, inr x)
  | Raise e => (r, inl e)
  | GetNextParameter k =>
      match get_next_assignment m with
      | inl e => (r, inl e)
      | inr assignment => run m (k assignment) r
      end
  | ReportIntermediate v k =>
      match report_intermediate m v r with
      | (r', inl e) => (r', inl e)
      | (r', inr _) => run m k r'
      end
  | ReportFinal v k =>
      match report_final m v r with
      | (r', inl e) => (r', inl e)
      | (r', inr _) => run m k r'
      end
  end.

(** The assignment the runtime hands to the trial. *)
Definition assignment_of (m : Mode) : gmap string PyVal :=
  match m with
  | Standalone => ∅
  | Coordinated assignment => assignment
  end.

(** A log of calls answered one after the other, up to the first error. *)
Fixpoint deliver (m : Mode) (log : list Call) (r : TrialReport)
  : TrialReport * (Error + unit) :=
  match log with
  | [] => (r, inr tt)
  | c :: log' =>
      let answer :=
        match c with
        | CallGetNextParameter =>
            match get_next_assignment m with
            | inl e => (r, inl e)
            | inr _ => (r, inr tt)
            end
        | CallReportIntermediate v => report_intermediate m v r
        | CallReportFinal v => report_final m v r
        end in
      match answer with
      | (r', inl e) => (r', inl e)
      | (r', inr _) => deliver m log' r'
      end
  end.

(** A trial that makes the given intermediate reports and then one final
    report. *)
Definition report_all (values : list Q) (last : Q) : Prog unit :=
  (for_each values (fun v _ => nni.report_intermediate_result v) tt ;;
   nni.report_final_result last)%prog.

End TrialRuntime.

(** ** The trial script *)

(** Cell "Hyperparameters to be tuned". *)
Definition params : gmap string PyVal :=
  <["features" := PyInt 512]>
    (<["lr" := PyFloat (1 # 1000)]>
      (<["momentum" := PyInt 0]> ∅)).

Definition batch_size : nat := 64.

Definition epochs : nat := 5.

(** The environment of the script, external to the repository: the tensor
    framework and the two FashionMNIST splits it downloads.  The calls into
    the framework are taken to return. *)
Class Torch : Type := {
  Sample : Type;
  Model : Type;
  Optimizer : Type;
  (** [NeuralNetwork().to(device)], built from [params['features']]. *)
  NeuralNetwork : PyVal -> Model;
  (** [torch.optim.SGD(model.parameters(), lr=.., momentum=..)]. *)
  SGD : Model -> PyVal -> PyVal -> Optimizer;
  (** [model(x)]: the logits of one sample. *)
  forward : Model -> Sample -> list Q;
  (** [loss_fn(pred, y).item()]. *)
  loss_fn : list (list Q) -> list nat -> Q;
  (** One pass of the training loop's body over a batch: forward, loss,
      [zero_grad], [backward], [optimizer.step]. *)
  sgd_step : list Sample -> list nat -> Model * Optimizer -> Model * Optimizer;
  training_data : list (Sample * nat);
  test_data : list (Sample * nat)
}.

Section Trial.
Context {env : Torch}.

Definition train (dataloader : DataLoader Sample) (st : Model * Optimizer)
  : Model * Optimizer :=
  fold_left (fun st '(X, y) => sgd_step X y st) (batches dataloader) st.

(** The loop of [test]: the running [(test_loss, correct)]. *)
Definition test_loop (model : Model)
    (bs : list (list Sample * list nat)) (acc : Q * Q) : Q * Q :=
  fold_left
    (fun '(test_loss, correct) '(X, y) =>
       let pred := map (forward model) X in
       (test_loss + loss_fn pred y,
        correct + inject_Z (count_eq (map argmax pred) y)))
    bs acc.

Definition test (dataloader : DataLoader Sample) (model : Model)
  : Error + Q :=
  let size := length (dataset dataloader) in
  let num_batches := length (batches dataloader) in
  let '(test_loss, correct) :=
    test_loop model (batches dataloader) (0, 0) in
  match truediv test_loss num_batches with
  | inl e => inl e
  | inr test_loss =>
      match truediv correct size with
      | inl e => inl e
      | inr correct => inr correct
      end
  end.

(** Cell "Load dataset". *)
Definition train_dataloader : DataLoader Sample :=
  mkDataLoader training_data batch_size.

Definition test_dataloader : DataLoader Sample :=
  mkDataLoader test_data batch_size.

(** Cell "Get optimized hyperparameters": the [params] after the update. *)
Definition get_optimized_params : Prog (gmap string PyVal) :=
  (optimized_params <- nni.get_next_parameter ;;
   Ret (update params optimized_params))%prog.

(** The body of the epoch loop; [accuracy] is unbound before the first
    pass. *)
Definition epoch (t : nat) (st : Model * Optimizer * option Q)
  : Prog (Model * Optimizer * option Q) :=
  (let '(model, optimizer, _) := st in
   let '(model, optimizer) := train train_dataloader (model, optimizer) in
   accuracy <- lift (test test_dataloader model) ;;
   nni.report_intermediate_result accuracy ;;
   Ret (model, optimizer, Some accuracy))%prog.

(** Cells "Build model with hyperparameters" to "Train model and report
    accuracy", run with the given [params]. *)
Definition train_and_report (params : gmap string PyVal) : Prog unit :=
  (features <- lift (getitem params "features") ;;
   let model := NeuralNetwork features in
   lr <- lift (getitem params "lr") ;;
   momentum <- lift (getitem params "momentum") ;;
   let optimizer := SGD model lr momentum in
   st <- for_each (range epochs) epoch (model, optimizer, None) ;;
   match snd st with
   | Some accuracy => nni.report_final_result accuracy
   | None => Raise (NameError "accuracy")
   end)%prog.

(** The whole script. *)
Definition main : Prog unit :=
  (params <- get_optimized_params ;;
   train_and_report params)%prog.

(** The number of samples of [ds] whose predicted class (the argmax of the
    model output) is the true label. *)
Definition num_correct (model : Model) (ds : list (Sample * nat)) : Z :=
  Z.of_nat
    (length
       (List.filter (fun s => argmax (forward model (fst s)) =? snd s)%nat ds)).

(** That number divided by the size of [ds]. *)
Definition accuracy_of (model : Model) (ds : list (Sample * nat)) : Q :=
  inject_Z (num_correct model ds) / inject_Z (Z.of_nat (length ds)).

(** The accuracy on the test split after each of [n] further epochs of
    training, in epoch order. *)
Fixpoint epoch_accuracies (n : nat) (st : Model * Optimizer) : list Q :=
  match n with
  | O => []
  | S n' =>
      let st' := train train_dataloader st in
      accuracy_of (fst st') test_data :: epoch_accuracies n' st'
  end.

(** The network and optimizer the script builds from its [params]. *)
Definition initial (params : gmap string PyVal) : Model * Optimizer :=
  let model := NeuralNetwork (default (PyInt 0) (params !! "features")) in
  (model,
   SGD model (default (PyInt 0) (params !! "lr"))
     (default (PyInt 0) (params !! "momentum"))).

End Trial.

(** A small environment to run the script on: samples and models are
    numbers, the model predicts class 0 for a sample when their sum is even,
    and a training step increments the model. *)
Definition example_env : Torch := {|
  Sample := nat;
  Model := nat;
  Optimizer := unit;
  NeuralNetwork := fun _ => O;
  SGD := fun _ _ _ => tt;
  forward := fun m x => if Nat.even (m + x) then [1; 0] else [0; 1];
  loss_fn := fun _ _ => 0;
  sgd_step := fun _ _ st => (S (fst st), tt);
  training_data := [(0, 0); (1, 1); (2, 0)]%nat;
  test_data := [(0, 0); (1, 1); (2, 0)]%nat
|}.

(** The environment with another loss function, all else the same. *)
Definition with_loss_fn (env : Torch)
    (l : list (list Q) -> list nat -> Q) : Torch := {|
  Sample := @Sample env;
  Model := @Model env;
  Optimizer := @Optimizer env;
  NeuralNetwork := @NeuralNetwork env;
  SGD := @SGD env;
  forward := @forward env;
  loss_fn := l;
  sgd_step := @sgd_step env;
  training_data := @training_data env;
  test_data := @test_data env
|}.

(** The environment with other data splits, all else the same. *)
Definition with_data (env : Torch)
    (training test : list (@Sample env * nat)) : Torch := {|
  Sample := @Sample env;
  Model := @Model env;
  Optimizer := @Optimizer env;
  NeuralNetwork := @NeuralNetwork env;
  SGD := @SGD env;
  forward := @forward env;
  loss_fn := @loss_fn env;
  sgd_step := @sgd_step env;
  training_data := training;
  test_data := test
|}.

(** ** The experiment notebook (main.ipynb) *)

(** One entry of the search space: [{'_type': .., '_value': [..]}]. *)
Record Space : Type := mkSpace {
  _type : string;
  _value : list PyVal
}.

(** Cell "Define search space". *)
Definition search_space : gmap string Space :=
  <["features" :=
      {| _type := "choice";
         _value := [PyInt 128; PyInt 256; PyInt 512; PyInt 1024] |}]>
    (<["lr" :=
         {| _type := "loguniform";
            _value := [PyFloat (1 # 10000); PyFloat (1 # 10)] |}]>
      (<["momentum" :=
           {| _type := "uniform"; _value := [PyInt 0; PyInt 1] |}]> ∅)).

Section TrialProofs.
Context {env : Torch}.

(** ** Batching *)

Lemma chunks_concat {A : Type} (bs : nat) :
  (0 < bs)%nat ->
  forall (fuel : nat) (l : list A),
    (length l <= fuel)%nat -> concat (chunks fuel bs l) = l.
Proof.
  intros Hbs. induction fuel as [|fuel IH]; intros l Hlen.
  - destruct l; simpl in *; [reflexivity | lia].
  - destruct l as [|x l]; [reflexivity|].
    cbn [chunks concat]. rewrite IH.
    + apply take_drop.
    + rewrite length_drop. simpl in *. lia.
Qed.

Lemma chunks_nonempty {A : Type} (bs : nat) (l : list A) :
  l <> [] -> chunks (length l) bs l <> [].
Proof. destruct l; [congruence | discriminate]. Qed.

Lemma batches_nonempty (dl : DataLoader Sample) :
  dataset dl <> [] -> (0 < length (batches dl))%nat.
Proof.
  intros H. unfold batches. rewrite length_map.
  pose proof (chunks_nonempty (loader_batch_size dl) _ H) as Hc.
  destruct (chunks _ _ _); [congruence | simpl; lia].
Qed.

(** ** [test] counts the correct predictions *)

Lemma count_eq_num_correct (model : Model) (b : list (Sample * nat)) :
  count_eq (map argmax (map (forward model) (map fst b))) (map snd b)
  = num_correct model b.
Proof.
  unfold num_correct. induction b as [|[x y] b IH]; [reflexivity|].
  cbn [map count_eq List.filter fst snd]. rewrite IH.
  destruct (argmax (forward model x) =? y)%nat; cbn [length]; lia.
Qed.

Lemma num_correct_app (model : Model) (a b : list (Sample * nat)) :
  num_correct model (a ++ b)
  = (num_correct model a + num_correct model b)%Z.
Proof. unfold num_correct. rewrite List.filter_app, length_app. lia. Qed.

Lemma inject_Z_plus_eq (a b : Z) :
  inject_Z a + inject_Z b = inject_Z (a + b).
Proof. unfold Qplus, inject_Z. cbn. f_equal. lia. Qed.

Lemma test_loop_correct (model : Model) (cs : list (list (Sample * nat))) :
  forall (test_loss : Q) (c : Z),
    snd (test_loop model (map (fun b => (map fst b, map snd b)) cs)
           (test_loss, inject_Z c))
    = inject_Z (c + num_correct model (concat cs)).
Proof.
  induction cs as [|b cs IH]; intros test_loss c.
  - cbn. f_equal. unfold num_correct. cbn. lia.
  - unfold test_loop in *. cbn [map fold_left concat].
    rewrite count_eq_num_correct, inject_Z_plus_eq, IH, num_correct_app.
    f_equal. lia.
Qed.

Lemma test_returns (dl : DataLoader Sample) (model : Model) :
  dataset dl <> [] -> (0 < loader_batch_size dl)%nat ->
  test dl model = inr (accuracy_of model (dataset dl)).
Proof.
  intros Hne Hbs. unfold test.
  pose proof (batches_nonempty dl Hne) as Hnb.
  pose proof (test_loop_correct model
    (chunks (length (dataset dl)) (loader_batch_size dl) (dataset dl)) 0 0)
    as Hloop.
  rewrite chunks_concat in Hloop by (auto; lia).
  fold (batches dl) in Hloop. change (inject_Z 0) with 0 in Hloop.
  destruct (test_loop model (batches dl) (0, 0)) as [test_loss correct].
  cbn [snd] in Hloop. subst correct.
  destruct (length (batches dl)) as [|nb]; [lia|].
  cbn [truediv].
  destruct (dataset dl) as [|s ds] eqn:E; [congruence|].
  reflexivity.
Qed.

Lemma test_raises (dl : DataLoader Sample) (model : Model) :
  dataset dl = [] -> test dl model = inl ZeroDivisionError.
Proof.
  intros H. unfold test, batches. rewrite H. reflexivity.
Qed.

Lemma num_correct_bounds (model : Model) (ds : list (Sample * nat)) :
  (0 <= num_correct model ds <= Z.of_nat (length ds))%Z.
Proof.
  unfold num_correct. pose proof (List.filter_length_le
    (fun s => argmax (forward model (fst s)) =? snd s)%nat ds). lia.
Qed.

Lemma accuracy_of_bounds (model : Model) (ds : list (Sample * nat)) :
  ds <> [] -> 0 <= accuracy_of model ds /\ accuracy_of model ds <= 1.
Proof.
  intros Hne. unfold accuracy_of.
  pose proof (num_correct_bounds model ds) as [Hlo Hhi].
  assert (Hpos : 0 < inject_Z (Z.of_nat (length ds))).
  { destruct ds; [congruence|]. reflexivity. }
  split.
  - apply Qle_shift_div_l; [exact Hpos|].
    rewrite Qmult_0_l. change 0 with (inject_Z 0).
    rewrite <- Zle_Qle. exact Hlo.
  - apply Qle_shift_div_r; [exact Hpos|].
    rewrite Qmult_1_l. rewrite <- Zle_Qle. exact Hhi.
Qed.

(** ** Call logs *)

Lemma trace_bind {A B : Type} (a : gmap string PyVal) (p : Prog A)
    (f : A -> Prog B) :
  trace a (bind p f)
  = match trace a p with
    | (log, inl e) => (log, inl e)
    | (log, inr x) =>
        let '(log', res) := trace a (f x) in (log ++ log', res)
    end.
Proof.
  induction p as [x|e|k IH|v k IH|v k IH]; cbn [bind trace].
  - destruct (trace a (f x)); reflexivity.
  - reflexivity.
  - rewrite IH. destruct (trace a (k a)) as [log [e|x]];
      [reflexivity | destruct (trace a (f x)); reflexivity].
  - rewrite IH. destruct (trace a k) as [log [e|x]];
      [reflexivity | destruct (trace a (f x)); reflexivity].
  - rewrite IH. destruct (trace a k) as [log [e|x]];
      [reflexivity | destruct (trace a (f x)); reflexivity].
Qed.

Lemma trace_lift {R : Type} (a : gmap string PyVal) (r : Error + R) :
  trace a (lift r) = ([], r).
Proof. destruct r; reflexivity. Qed.

(** A run against the runtime is the delivery of the call log. *)
Lemma run_trace {R : Type} (m : TrialRuntime.Mode) (p : Prog R) :
  forall r : TrialRuntime.TrialReport,
    TrialRuntime.run m p r
    = let '(log, res) := trace (TrialRuntime.assignment_of m) p in
      match TrialRuntime.deliver m log r with
      | (r', inl e) => (r', inl e)
      | (r', inr _) => (r', res)
      end.
Proof.
  induction p as [x|e|k IH|v k IH|v k IH]; intros r;
    cbn [TrialRuntime.run trace].
  - reflexivity.
  - reflexivity.
  - specialize (IH (TrialRuntime.assignment_of m) r).
    destruct (trace _ (k _)) as [log res].
    cbn [TrialRuntime.deliver]. destruct m; exact IH.
  - destruct (trace _ k) as [log res] eqn:E. cbn [TrialRuntime.deliver].
    destruct (TrialRuntime.report_intermediate m v r) as [r' [e|[]]];
      [reflexivity | apply IH].
  - destruct (trace _ k) as [log res] eqn:E. cbn [TrialRuntime.deliver].
    destruct (TrialRuntime.report_final m v r) as [r' [e|[]]];
      [reflexivity | apply IH].
Qed.

(** ** The hyperparameters after the update *)

Lemma update_lookup (d other : gmap string PyVal) (key : string) :
  update d other !! key
  = match other !! key with
    | Some v => Some v
    | None => d !! key
    end.
Proof.
  unfold update. rewrite lookup_union.
  destruct (other !! key), (d !! key); reflexivity.
Qed.

Lemma getitem_is_Some (d : gmap string PyVal) (key : string) :
  is_Some (d !! key) -> getitem d key = inr (default (PyInt 0) (d !! key)).
Proof. intros [v Hv]. unfold getitem. rewrite Hv. reflexivity. Qed.

Lemma params_features : params !! "features" = Some (PyInt 512).
Proof. reflexivity. Qed.

Lemma params_lr : params !! "lr" = Some (PyFloat (1 # 1000)).
Proof. reflexivity. Qed.

Lemma params_momentum : params !! "momentum" = Some (PyInt 0).
Proof. reflexivity. Qed.

Lemma params_other (key : string) :
  key <> "features" -> key <> "lr" -> key <> "momentum" ->
  params !! key = None.
Proof.
  intros H1 H2 H3. unfold params.
  rewrite !lookup_insert_ne by congruence. apply lookup_empty.
Qed.

Lemma update_keeps_keys (d other : gmap string PyVal) (key : string) :
  is_Some (d !! key) -> is_Some (update d other !! key).
Proof.
  intros Hd. rewrite update_lookup. destruct (other !! key); eauto.
Qed.

(** ** The call log of the script *)

Lemma length_epoch_accuracies (n : nat) :
  forall st : Model * Optimizer, length (epoch_accuracies n st) = n.
Proof. induction n as [|n IH]; intros st; cbn; [|rewrite IH]; reflexivity. Qed.

Lemma trace_epochs (a : gmap string PyVal) :
  test_data <> [] ->
  forall (xs : list nat) (st : Model * Optimizer) (o : option Q),
  exists st' : Model * Optimizer,
    trace a (for_each xs epoch (st, o))
    = (map CallReportIntermediate (epoch_accuracies (length xs) st),
       inr (st', match last (epoch_accuracies (length xs) st) with
                 | Some v => Some v
                 | None => o
                 end)).
Proof.
  intros Hne. induction xs as [|x xs IH]; intros [model optimizer] o.
  - eexists. reflexivity.
  - cbn [for_each length epoch_accuracies]. rewrite trace_bind.
    unfold epoch at 1.
    destruct (train train_dataloader (model, optimizer))
      as [model' optimizer'] eqn:Et.
    rewrite trace_bind, trace_lift.
    rewrite test_returns by (cbn; first [exact Hne | unfold batch_size; lia]).
    cbn [trace bind nni.report_intermediate_result app dataset
         test_dataloader fst].
    destruct (IH (model', optimizer') (Some (accuracy_of model' test_data)))
      as [st' ->].
    exists st'. cbn [app map]. do 3 f_equal.
    destruct (epoch_accuracies (length xs) (model', optimizer')) as [|v vs].
    + reflexivity.
    + rewrite last_cons_cons.
      destruct (last (v :: vs)) eqn:El; [reflexivity|].
      apply last_None in El. discriminate.
Qed.

Lemma trace_epochs_raises (a : gmap string PyVal) :
  test_data = [] ->
  forall (x : nat) (xs : list nat) (st : Model * Optimizer * option Q),
    trace a (for_each (x :: xs) epoch st)
    = ([], inl ZeroDivisionError).
Proof.
  intros He x xs [[model optimizer] o].
  cbn [for_each]. rewrite trace_bind. unfold epoch.
  destruct (train train_dataloader (model, optimizer)) as [model' optimizer'].
  rewrite trace_bind, trace_lift, test_raises by exact He. reflexivity.
Qed.

Lemma last_epoch_accuracies (st : Model * Optimizer) :
  is_Some (last (epoch_accuracies epochs st)).
Proof.
  destruct (last (epoch_accuracies epochs st)) eqn:E; [eauto|].
  apply last_None in E.
  pose proof (length_epoch_accuracies epochs st) as Hl.
  rewrite E in Hl. discriminate.
Qed.

Lemma trace_train_and_report (a P : gmap string PyVal) :
  is_Some (P !! "features") -> is_Some (P !! "lr") ->
  is_Some (P !! "momentum") -> test_data <> [] ->
  exists v : Q,
    last (epoch_accuracies epochs (initial P)) = Some v /\
    trace a (train_and_report P)
    = (map CallReportIntermediate (epoch_accuracies epochs (initial P))
         ++ [CallReportFinal v], inr tt).
Proof.
  intros Hf Hl Hm Hne.
  destruct (last_epoch_accuracies (initial P)) as [v Hv].
  exists v. split; [exact Hv|].
  unfold train_and_report.
  rewrite trace_bind, trace_lift, (getitem_is_Some _ _ Hf).
  rewrite trace_bind, trace_lift, (getitem_is_Some _ _ Hl).
  rewrite trace_bind, trace_lift, (getitem_is_Some _ _ Hm).
  rewrite trace_bind. fold (initial P).
  destruct (trace_epochs a Hne (range epochs) (initial P) None) as [st' ->].
  unfold range. rewrite length_seq, Hv. reflexivity.
Qed.

Lemma trace_train_and_report_raises (a P : gmap string PyVal) :
  is_Some (P !! "features") -> is_Some (P !! "lr") ->
  is_Some (P !! "momentum") -> test_data = [] ->
  trace a (train_and_report P) = ([], inl ZeroDivisionError).
Proof.
  intros Hf Hl Hm He. unfold train_and_report.
  rewrite trace_bind, trace_lift, (getitem_is_Some _ _ Hf).
  rewrite trace_bind, trace_lift, (getitem_is_Some _ _ Hl).
  rewrite trace_bind, trace_lift, (getitem_is_Some _ _ Hm).
  rewrite trace_bind.
  change (range epochs) with (O :: seq 1 4).
  rewrite trace_epochs_raises by exact He. reflexivity.
Qed.

Lemma trace_main (a : gmap string PyVal) :
  trace a main
  = let '(log, res) := trace a (train_and_report (update params a)) in
    (CallGetNextParameter :: log, res).
Proof.
  unfold main, get_optimized_params.
  cbn [bind nni.get_next_parameter trace].
  destruct (trace a (train_and_report (update params a))); reflexivity.
Qed.

Lemma update_params_keys (a : gmap string PyVal) :
  is_Some (update params a !! "features")
  /\ is_Some (update params a !! "lr")
  /\ is_Some (update params a !! "momentum").
Proof.
  repeat split; apply update_keeps_keys.
  - rewrite params_features. eauto.
  - rewrite params_lr. eauto.
  - rewrite params_momentum. eauto.
Qed.

Lemma epoch_accuracies_are_tests (n : nat) :
  forall (st : Model * Optimizer) (v : Q),
    In v (epoch_accuracies n st) ->
    exists model : Model, v = accuracy_of model test_data.
Proof.
  induction n as [|n IH]; intros st v Hin; cbn in Hin; [contradiction|].
  destruct Hin as [<-|Hin]; [eauto | eapply IH; exact Hin].
Qed.

Lemma no_final_among_intermediates (vs : list Q) (w : Q) :
  ~ In (CallReportFinal w) (map CallReportIntermediate vs).
Proof.
  intros Hin. apply in_map_iff in Hin. destruct Hin as [x [Hx _]].
  discriminate.
Qed.

(** The call log of the script: nothing but the parameter request when the
    test split is empty, otherwise the request, the accuracy of each epoch
    and the final report. *)
Lemma trace_main_cases (a : gmap string PyVal) :
  (test_data = [] /\
   trace a main = ([CallGetNextParameter], inl ZeroDivisionError))
  \/ (test_data <> [] /\
      exists v : Q,
        last (epoch_accuracies epochs (initial (update params a))) = Some v /\
        trace a main
        = (CallGetNextParameter
             :: map CallReportIntermediate
                  (epoch_accuracies epochs (initial (update params a)))
             ++ [CallReportFinal v],
           inr tt)).
Proof.
  destruct (update_params_keys a) as (Hf & Hl & Hm).
  rewrite trace_main.
  destruct test_data as [|s ds] eqn:E.
  - left. split; [reflexivity|].
    rewrite (trace_train_and_report_raises a _ Hf Hl Hm E). reflexivity.
  - right. split; [discriminate|].
    assert (Hne : test_data <> []) by (rewrite E; discriminate).
    destruct (trace_train_and_report a _ Hf Hl Hm Hne) as (v & Hv & ->).
    exists v. split; [exact Hv | reflexivity].
Qed.

(** ** The claims about the script *)

(** C8: for every assignment that [get_next_parameter] returns, the script's
    [params] after [params.update(assignment)] hold the assignment's value at
    every key of the assignment and keep their former value at every other
    key; the defaults are features = 512, lr = 0.001 and momentum = 0, and
    with the empty assignment [params] is exactly the default mapping. *)
Theorem params_update_frame (assignment : gmap string PyVal) :
  trace assignment get_optimized_params
  = ([CallGetNextParameter], inr (update params assignment))
  /\ (forall (key : string) (v : PyVal),
        assignment !! key = Some v ->
        update params assignment !! key = Some v)
  /\ (forall key : string,
        assignment !! key = None ->
        update params assignment !! key = params !! key)
  /\ params !! "features" = Some (PyInt 512)
  /\ params !! "lr" = Some (PyFloat (1 # 1000))
  /\ params !! "momentum" = Some (PyInt 0)
  /\ update params ∅ = params.
Proof.
  split; [reflexivity|]. split; [|split].
  - intros key v Hk. rewrite update_lookup, Hk. reflexivity.
  - intros key Hk. rewrite update_lookup, Hk. reflexivity.
  - split; [exact params_features|]. split; [exact params_lr|].
    split; [exact params_momentum|].
    unfold update. apply (left_id_L ∅ (∪)).
Qed.

(** C9: in every run of the script, the value passed to [report_final_result]
    is the value passed to the last [report_intermediate_result] call: the
    final report is the last call of the run and the call just before it is
    the intermediate report of the same value. *)
Theorem final_is_last_intermediate (a : gmap string PyVal) (v : Q) :
  In (CallReportFinal v) (fst (trace a main)) ->
  exists pre : list Call,
    fst (trace a main)
    = pre ++ [CallReportIntermediate v; CallReportFinal v]
    /\ forall w : Q, ~ In (CallReportFinal w) pre.
Proof.
  intros Hin.
  destruct (trace_main_cases a) as [[_ Ht]|[_ (f & Hf & Ht)]];
    rewrite Ht in Hin |- *; cbn [fst] in *.
  - destruct Hin as [Hin|[]]. discriminate.
  - destruct Hin as [Hin|Hin]; [discriminate|].
    apply in_app_or in Hin. destruct Hin as [Hin|[Hin|[]]].
    + exfalso. exact (no_final_among_intermediates _ _ Hin).
    + injection Hin as ->.
      apply last_Some in Hf. destruct Hf as [front Hfront].
      exists (CallGetNextParameter :: map CallReportIntermediate front).
      split.
      * rewrite Hfront, map_app. cbn [map app].
        rewrite <- app_assoc. reflexivity.
      * intros w [Hw|Hw]; [discriminate|].
        exact (no_final_among_intermediates _ _ Hw).
Qed.

(** C10: on a non-empty test split, [test] returns the number of samples
    whose predicted class (the argmax of the model output) is the true label,
    divided by the size of the split, a value between 0 and 1; and every
    value the script reports is such a result of [test]. *)
Theorem test_accuracy :
  test_data <> [] ->
  (forall model : Model,
     test test_dataloader model
     = inr (inject_Z (num_correct model test_data)
            / inject_Z (Z.of_nat (length test_data)))
     /\ 0 <= accuracy_of model test_data
     /\ accuracy_of model test_data <= 1)
  /\ (forall (a : gmap string PyVal) (v : Q),
        In (CallReportIntermediate v) (fst (trace a main))
        \/ In (CallReportFinal v) (fst (trace a main)) ->
        exists model : Model,
          test test_dataloader model = inr v /\ 0 <= v /\ v <= 1).
Proof.
  intros Hne.
  assert (Htest : forall model : Model,
            test test_dataloader model = inr (accuracy_of model test_data)).
  { intros model. apply (test_returns test_dataloader model);
      [exact Hne | unfold test_dataloader, batch_size; cbn; lia]. }
  split.
  - intros model. split; [apply Htest|].
    apply accuracy_of_bounds. exact Hne.
  - intros a v Hin.
    assert (Hacc : In v (epoch_accuracies epochs (initial (update params a)))).
    { destruct (trace_main_cases a) as [[He _]|[_ (f & Hf & Ht)]];
        [congruence|].
      rewrite Ht in Hin. cbn [fst] in Hin.
      destruct Hin as [[Hin|Hin]|[Hin|Hin]]; try discriminate.
      - apply in_app_or in Hin. destruct Hin as [Hin|[Hin|[]]];
          [|discriminate].
        apply in_map_iff in Hin. destruct Hin as (x & Hx & Hin).
        injection Hx as ->. exact Hin.
      - apply in_app_or in Hin. destruct Hin as [Hin|[Hin|[]]].
        + exfalso. exact (no_final_among_intermediates _ _ Hin).
        + injection Hin as ->. apply last_Some in Hf.
          destruct Hf as [front ->]. apply in_or_app. right. left.
          reflexivity. }
    destruct (epoch_accuracies_are_tests _ _ _ Hacc) as [model ->].
    exists model. split; [apply Htest|].
    apply accuracy_of_bounds. exact Hne.
Qed.

(** ** The runtime's view of the reports *)

Import TrialRuntime.

Lemma deliver_intermediates (a : gmap string PyVal) (rest : list Call) :
  forall (vs : list Q) (r : TrialReport),
    final r = None ->
    deliver (Coordinated a) (map CallReportIntermediate vs ++ rest) r
    = deliver (Coordinated a) rest
        {| intermediates := intermediates r ++ vs; final := None |}.
Proof.
  induction vs as [|v vs IH]; intros [ivs f] Hf; cbn in Hf; subst f.
  - cbn [map app intermediates]. rewrite app_nil_r. reflexivity.
  - cbn [map app deliver report_intermediate final intermediates].
    rewrite IH by reflexivity. cbn [intermediates].
    rewrite <- app_assoc. reflexivity.
Qed.

Lemma deliver_reports (a : gmap string PyVal) (vs : list Q) (v : Q) :
  deliver (Coordinated a)
    (map CallReportIntermediate vs ++ [CallReportFinal v]) new_report
  = ({| intermediates := vs; final := Some v |}, inr tt).
Proof. rewrite deliver_intermediates by reflexivity. reflexivity. Qed.

Lemma deliver_standalone (log : list Call) (r : TrialReport) :
  deliver Standalone log r = (r, inr tt).
Proof.
  induction log as [|c log IH]; [reflexivity|].
  cbn [deliver]. destruct c; cbn; try destruct (final r); exact IH.
Qed.

Lemma trace_report_all (a : gmap string PyVal) (vs : list Q) (v : Q) :
  trace a (report_all vs v)
  = (map CallReportIntermediate vs ++ [CallReportFinal v], inr tt).
Proof.
  unfold report_all. rewrite trace_bind.
  assert (Hloop : trace a
            (for_each vs (fun v _ => nni.report_intermediate_result v) tt)
          = (map CallReportIntermediate vs, inr tt)).
  { induction vs as [|x vs IH]; [reflexivity|].
    cbn [for_each]. rewrite trace_bind.
    cbn [trace nni.report_intermediate_result]. rewrite IH. reflexivity. }
  rewrite Hloop. reflexivity.
Qed.

(** ** The claims about the runtime *)

(** C1: a trial that makes any finite sequence of [report_intermediate] calls
    and then one [report_final] call leaves, in a coordinated run, a report
    that holds exactly those intermediate values in call order and exactly
    that final value; the script is such a trial, with one intermediate
    report per epoch (five) and the final report. *)
Theorem reports_delivered_in_order :
  (forall (a : gmap string PyVal) (values : list Q) (last_value : Q),
     run (Coordinated a) (report_all values last_value) new_report
     = ({| intermediates := values; final := Some last_value |}, inr tt))
  /\ (test_data <> [] ->
      forall a : gmap string PyVal,
        let accs := epoch_accuracies epochs (initial (update params a)) in
        length accs = 5%nat
        /\ run (Coordinated a) main new_report
           = ({| intermediates := accs; final := last accs |}, inr tt)).
Proof.
  split.
  - intros a values last_value.
    rewrite run_trace. cbn [assignment_of].
    rewrite trace_report_all, deliver_reports. reflexivity.
  - intros Hne a accs. split; [apply length_epoch_accuracies|].
    rewrite run_trace. cbn [assignment_of].
    destruct (trace_main_cases a) as [[He _]|[_ (v & Hv & ->)]];
      [congruence|].
    cbn [deliver get_next_assignment].
    fold accs in Hv |- *. rewrite deliver_reports, Hv. reflexivity.
Qed.

(** C2: outside a coordinated experiment [get_next_assignment] returns the
    empty mapping and no error; the script then keeps its default
    hyperparameters, runs as it would with exactly these, and on a non-empty
    test split ends without an error. *)
Theorem standalone_assignment_is_empty :
  get_next_assignment Standalone = inr ∅
  /\ (forall r : TrialReport,
        run Standalone get_optimized_params r = (r, inr params))
  /\ (forall r : TrialReport,
        run Standalone main r = run Standalone (train_and_report params) r)
  /\ (test_data <> [] ->
      forall r : TrialReport, run Standalone main r = (r, inr tt)).
Proof.
  assert (Hid : update params ∅ = params)
    by (unfold update; apply (left_id_L ∅ (∪))).
  split; [reflexivity|]. split; [|split].
  - intros r. cbn. rewrite Hid. reflexivity.
  - intros r. unfold main, get_optimized_params.
    cbn [bind nni.get_next_parameter run get_next_assignment].
    rewrite Hid. reflexivity.
  - intros Hne r. rewrite run_trace. cbn [assignment_of].
    destruct (trace_main_cases ∅) as [[He _]|[_ (v & _ & ->)]];
      [congruence|].
    rewrite deliver_standalone. reflexivity.
Qed.

(** C4: in a coordinated run, once a [report_final] call has succeeded, a
    second one raises [DuplicateFinalReport] and leaves the report, and with
    it the sealed final value, as it was. *)
Theorem duplicate_final_report (a : gmap string PyVal) (r r' : TrialReport)
    (v w : Q) :
  report_final (Coordinated a) v r = (r', inr tt) ->
  final r' = Some v
  /\ report_final (Coordinated a) w r' = (r', inl DuplicateFinalReport)
  /\ run (Coordinated a) (nni.report_final_result w) r'
     = (r', inl DuplicateFinalReport).
Proof.
  intros Hfirst. unfold report_final in Hfirst.
  destruct (final r) eqn:Hf; [discriminate|].
  injection Hfirst as <-. cbn. auto.
Qed.

End TrialProofs.

(** ** The claims on the example environment *)

Lemma params_update_frame_witness :
  update params {["lr" := PyFloat (1 # 100)]} !! "lr"
  = Some (PyFloat (1 # 100))
  /\ update params {["lr" := PyFloat (1 # 100)]} !! "features"
     = Some (PyInt 512).
Proof.
  destruct (params_update_frame {["lr" := PyFloat (1 # 100)]})
    as (_ & Hin & Hout & Hf & _).
  split.
  - apply Hin. reflexivity.
  - rewrite Hout by reflexivity. exact Hf.
Defined.

Lemma final_is_last_intermediate_witness :
  In (CallReportFinal (0 # 3)) (fst (trace ∅ (@main example_env)))
  /\ exists pre : list Call,
       fst (trace ∅ (@main example_env))
       = pre ++ [CallReportIntermediate (0 # 3); CallReportFinal (0 # 3)]
       /\ forall w : Q, ~ In (CallReportFinal w) pre.
Proof.
  assert (Hin : In (CallReportFinal (0 # 3))
                  (fst (trace ∅ (@main example_env)))).
  { vm_compute. do 6 right. left. reflexivity. }
  split; [exact Hin|].
  exact (@final_is_last_intermediate example_env ∅ (0 # 3) Hin).
Defined.

Lemma test_accuracy_witness :
  @test_data example_env <> []
  /\ @test example_env test_dataloader O = inr (3 # 3)
  /\ 3 # 3 <= 1.
Proof.
  assert (Hne : @test_data example_env <> []) by discriminate.
  split; [exact Hne|].
  destruct (@test_accuracy example_env Hne) as [Htest _].
  destruct (Htest O) as (Heq & _ & Hle).
  split; [exact Heq | exact Hle].
Defined.

Lemma reports_delivered_in_order_witness :
  TrialRuntime.run (TrialRuntime.Coordinated ∅) (@main example_env)
    TrialRuntime.new_report
  = ({| TrialRuntime.intermediates := [0 # 3; 3 # 3; 0 # 3; 3 # 3; 0 # 3];
        TrialRuntime.final := Some (0 # 3) |}, inr tt).
Proof.
  assert (Hne : @test_data example_env <> []) by discriminate.
  destruct (@reports_delivered_in_order example_env) as [_ Hscript].
  destruct (Hscript Hne ∅) as [_ Hrun].
  exact Hrun.
Defined.

Lemma standalone_assignment_is_empty_witness :
  TrialRuntime.run TrialRuntime.Standalone (@main example_env)
    TrialRuntime.new_report
  = (TrialRuntime.new_report, inr tt).
Proof.
  assert (Hne : @test_data example_env <> []) by discriminate.
  destruct (@standalone_assignment_is_empty example_env) as (_ & _ & _ & Hrun).
  exact (Hrun Hne TrialRuntime.new_report).
Defined.

Lemma duplicate_final_report_witness :
  TrialRuntime.report_final (TrialRuntime.Coordinated ∅) (3 # 4)
    {| TrialRuntime.intermediates := []; TrialRuntime.final := Some (1 # 2) |}
  = ({| TrialRuntime.intermediates := [];
        TrialRuntime.final := Some (1 # 2) |},
     inl DuplicateFinalReport).
Proof.
  destruct (duplicate_final_report ∅ TrialRuntime.new_report
              {| TrialRuntime.intermediates := [];
                 TrialRuntime.final := Some (1 # 2) |}
              (1 # 2) (3 # 4) eq_refl) as (_ & Hsecond & _).
  exact Hsecond.
Defined.

(** ** Further properties of [test] *)

Section TestProperties.
Context {env : Torch}.

Lemma test_loop_snd_loss (l : list (list Q) -> list nat -> Q)
    (model : Model) (bs : list (list Sample * list nat)) :
  forall (t1 t2 c : Q),
    snd (@test_loop (with_loss_fn env l) model bs (t1, c))
    = snd (@test_loop env model bs (t2, c)).
Proof.
  induction bs as [|[X y] bs IH]; intros t1 t2 c; [reflexivity|].
  unfold test_loop in *. cbn [fold_left]. apply IH.
Qed.



(** X2: the result of [test] does not depend on the loss function: the
    accumulated [test_loss] is computed and dropped. *)
Theorem test_ignores_loss (l : list (list Q) -> list nat -> Q)
    (dl : DataLoader Sample) (model : Model) :
  @test (with_loss_fn env l) dl model = @test env dl model.
Proof.
  unfold test.
  pose proof (test_loop_snd_loss l model (batches dl) 0 0 0) as Hsnd.
  change (@batches (@Sample (with_loss_fn env l)) dl)
    with (@batches (@Sample env) dl).
  destruct (@test_loop (with_loss_fn env l) model (batches dl) (0, 0))
    as [t1 c1].
  destruct (@test_loop env model (batches dl) (0, 0)) as [t2 c2].
  cbn [snd] in Hsnd. subst c2.
  change (@Sample (with_loss_fn env l)) with (@Sample env).
  destruct (length (batches dl)); reflexivity.
Qed.


End TestProperties.

(** ** Further properties of the script *)

Section ScriptProperties.
Context {env : Torch}.

Lemma lookup_map {A B : Type} (f : A -> B) (l : list A) :
  forall i : nat, map f l !! i = f <$> l !! i.
Proof.
  induction l as [|x l IH]; intros [|i]; cbn; try reflexivity. apply IH.
Qed.

Lemma lookup_epoch_accuracies (n : nat) :
  forall (st : Model * Optimizer) (t : nat),
    (t < n)%nat ->
    epoch_accuracies n st !! t
    = Some (accuracy_of
              (fst (Nat.iter (S t) (train train_dataloader) st)) test_data).
Proof.
  induction n as [|n IH]; intros st t Ht; [lia|].
  destruct t as [|t]; cbn [epoch_accuracies]; [reflexivity|].
  change ((?x :: ?l) !! S t) with (l !! t).
  rewrite IH by lia. rewrite <- !Nat.iter_succ_r. reflexivity.
Qed.

Lemma train_empty (st : Model * Optimizer) :
  training_data = [] -> train train_dataloader st = st.
Proof.
  intros He. unfold train, batches, train_dataloader. cbn [dataset].
  rewrite He. reflexivity.
Qed.

Lemma epoch_accuracies_untrained (n : nat) (st : Model * Optimizer) :
  training_data = [] ->
  epoch_accuracies n st = replicate n (accuracy_of (fst st) test_data).
Proof.
  intros He. induction n as [|n IH]; [reflexivity|].
  cbn [epoch_accuracies replicate]. rewrite train_empty by exact He.
  rewrite IH. reflexivity.
Qed.


(** X5: the script calls [get_next_parameter] exactly once, and before anything
    else. *)
Theorem get_next_parameter_called_once (a : gmap string PyVal) :
  exists rest : list Call,
    fst (trace a main) = CallGetNextParameter :: rest
    /\ ~ In CallGetNextParameter rest.
Proof.
  destruct (trace_main_cases a) as [[_ Ht]|[_ (v & _ & Ht)]];
    rewrite Ht; cbn [fst]; eexists; (split; [reflexivity|]).
  - intros [].
  - intros Hin. apply in_app_or in Hin.
    destruct Hin as [Hin|[Hin|[]]]; [|discriminate].
    apply in_map_iff in Hin. destruct Hin as (x & Hx & _). discriminate.
Qed.

(** X6: the report of epoch [t] is the test accuracy of the network after
    [t + 1] passes of [train] from the network built with the updated
    [params]: training accumulates over the epochs and each epoch is
    evaluated after its own pass. *)
Theorem epoch_report_follows_training (a : gmap string PyVal) (t : nat) :
  test_data <> [] -> (t < epochs)%nat ->
  fst (trace a main) !! S t
  = Some (CallReportIntermediate
            (accuracy_of
               (fst (Nat.iter (S t) (train train_dataloader)
                       (initial (update params a))))
               test_data)).
Proof.
  intros Hne Ht.
  destruct (trace_main_cases a) as [[He _]|[_ (v & _ & ->)]]; [congruence|].
  cbn [fst]. change ((?x :: ?l) !! S t) with (l !! t).
  rewrite lookup_app_l by (rewrite length_map, length_epoch_accuracies; lia).
  rewrite lookup_map, lookup_epoch_accuracies by exact Ht. reflexivity.
Qed.

(** X7: with an empty training split [train] changes nothing, so the script
    reports the accuracy of the freshly built network in each of the five
    epochs and as the final result. *)
Theorem untrained_reports_are_constant (a : gmap string PyVal) :
  training_data = [] -> test_data <> [] ->
  let acc := accuracy_of (fst (initial (update params a))) test_data in
  trace a main
  = (CallGetNextParameter
       :: replicate 5 (CallReportIntermediate acc) ++ [CallReportFinal acc],
     inr tt).
Proof.
  intros He Hne acc.
  destruct (trace_main_cases a) as [[He' _]|[_ (v & Hv & ->)]]; [congruence|].
  rewrite (epoch_accuracies_untrained _ _ He) in Hv |- *.
  fold acc in Hv |- *. cbn in Hv. injection Hv as <-. reflexivity.
Qed.

(** X8: run with a [params] dict that lacks a hyperparameter, the cells that
    build the model raise [KeyError] for the first missing one of
    'features', 'lr', 'momentum', before any NNI call. *)
Theorem missing_hyperparameter_raises (a P : gmap string PyVal) :
  (P !! "features" = None ->
   trace a (train_and_report P) = ([], inl (KeyError "features")))
  /\ (is_Some (P !! "features") -> P !! "lr" = None ->
      trace a (train_and_report P) = ([], inl (KeyError "lr")))
  /\ (is_Some (P !! "features") -> is_Some (P !! "lr") ->
      P !! "momentum" = None ->
      trace a (train_and_report P) = ([], inl (KeyError "momentum"))).
Proof.
  unfold train_and_report. split; [|split].
  - intros Hf. rewrite trace_bind, trace_lift. unfold getitem.
    rewrite Hf. reflexivity.
  - intros Hf Hl.
    rewrite trace_bind, trace_lift, (getitem_is_Some _ _ Hf).
    rewrite trace_bind, trace_lift. unfold getitem. rewrite Hl. reflexivity.
  - intros Hf Hl Hm.
    rewrite trace_bind, trace_lift, (getitem_is_Some _ _ Hf).
    rewrite trace_bind, trace_lift, (getitem_is_Some _ _ Hl).
    rewrite trace_bind, trace_lift. unfold getitem. rewrite Hm. reflexivity.
Qed.

End ScriptProperties.

(** ** Batches *)

Section BatchProperties.
Context {A : Type}.

Lemma chunks_fuel (bs : nat) :
  (0 < bs)%nat ->
  forall (f1 f2 : nat) (l : list A),
    (length l <= f1)%nat -> (length l <= f2)%nat ->
    chunks f1 bs l = chunks f2 bs l.
Proof.
  intros Hbs. induction f1 as [|f1 IH]; intros f2 l H1 H2.
  - destruct l; [destruct f2; reflexivity | cbn in H1; lia].
  - destruct l as [|x l]; [destruct f2; reflexivity|].
    destruct f2 as [|f2]; [cbn in H2; lia|].
    cbn [chunks]. f_equal.
    apply IH; rewrite length_drop; cbn [length] in *; lia.
Qed.

Lemma chunks_app (bs : nat) :
  (0 < bs)%nat ->
  forall (k : nat) (l1 l2 : list A),
    length l1 = (k * bs)%nat ->
    chunks (length (l1 ++ l2)) bs (l1 ++ l2)
    = chunks (length l1) bs l1 ++ chunks (length l2) bs l2.
Proof.
  intros Hbs. induction k as [|k IH]; intros l1 l2 Hlen.
  - destruct l1; [reflexivity | discriminate].
  - destruct l1 as [|x l1]; [cbn in Hlen; lia|].
    assert (Hge : (bs <= length (x :: l1))%nat) by lia.
    cbn [app length chunks].
    change (x :: l1 ++ l2) with ((x :: l1) ++ l2).
    rewrite take_app_le, drop_app_le by exact Hge.
    cbn [app]. f_equal.
    assert (Hd : length (drop bs (x :: l1)) = (k * bs)%nat)
      by (rewrite length_drop; lia).
    rewrite (chunks_fuel bs Hbs _ (length (drop bs (x :: l1) ++ l2)))
      by (rewrite ?length_app, ?length_drop; cbn [length] in *; lia).
    rewrite (IH _ _ Hd). f_equal.
    apply chunks_fuel; [exact Hbs | reflexivity |].
    rewrite length_drop. cbn [length]. lia.
Qed.

Lemma chunks_sizes (bs : nat) :
  (0 < bs)%nat ->
  forall (fuel : nat) (l : list A),
    Forall (fun b => (0 < length b <= bs)%nat) (chunks fuel bs l).
Proof.
  intros Hbs. induction fuel as [|fuel IH]; intros l.
  - destruct l; constructor.
  - destruct l as [|x l]; [constructor|].
    cbn [chunks]. constructor; [|apply IH].
    rewrite length_take. cbn [length]. lia.
Qed.

Lemma chunks_count (bs : nat) :
  (0 < bs)%nat ->
  forall (fuel : nat) (l : list A),
    (length l <= fuel)%nat ->
    length (chunks fuel bs l) = ((length l + bs - 1) / bs)%nat.
Proof.
  intros Hbs. induction fuel as [|fuel IH]; intros l Hlen.
  - destruct l; [|cbn in Hlen; lia].
    cbn. symmetry. apply Nat.div_small. lia.
  - destruct l as [|x l].
    + cbn. symmetry. apply Nat.div_small. lia.
    + cbn [chunks length]. rewrite IH
        by (rewrite length_drop; cbn [length] in *; lia).
      rewrite length_drop. cbn [length].
      destruct (le_lt_dec (S (length l)) bs) as [Hle|Hgt].
      * replace (S (length l) - bs)%nat with O by lia.
        rewrite (Nat.div_small (0 + bs - 1) bs) by lia.
        apply (Nat.div_unique _ _ 1%nat (length l)); lia.
      * replace (S (length l) + bs - 1)%nat
          with ((S (length l) - bs + bs - 1) + 1 * bs)%nat by lia.
        rewrite Nat.div_add by lia. lia.
Qed.

End BatchProperties.

Section LoaderProperties.
Context {env : Torch}.

(** X9: the batches a loader with a positive batch size yields, as [train] and
    [test] iterate over them: their samples and labels, put end to end, are
    the dataset's in order; every batch pairs as many labels as samples, at
    least one and at most [batch_size]; and there are
    ceil(size / batch_size) of them. *)
Theorem batches_partition (dl : DataLoader Sample) :
  (0 < loader_batch_size dl)%nat ->
  concat (map fst (batches dl)) = map fst (dataset dl)
  /\ concat (map snd (batches dl)) = map snd (dataset dl)
  /\ Forall (fun b => length (fst b) = length (snd b)
                      /\ (0 < length (fst b) <= loader_batch_size dl)%nat)
       (batches dl)
  /\ length (batches dl)
     = ((length (dataset dl) + loader_batch_size dl - 1)
        / loader_batch_size dl)%nat.
Proof.
  intros Hbs. unfold batches.
  set (cs := chunks (length (dataset dl)) (loader_batch_size dl) (dataset dl)).
  assert (Hcat : concat cs = dataset dl)
    by (apply chunks_concat; [exact Hbs | reflexivity]).
  rewrite !map_map. cbn [fst snd].
  split; [|split; [|split]].
  - rewrite <- List.concat_map, Hcat. reflexivity.
  - rewrite <- List.concat_map, Hcat. reflexivity.
  - apply Forall_map. cbn [fst snd].
    eapply Forall_impl; [apply chunks_sizes; exact Hbs|].
    intros b Hb. cbn beta. rewrite !length_map. split; [reflexivity | exact Hb].
  - rewrite length_map. apply chunks_count; [exact Hbs | reflexivity].
Qed.

(** X10: one pass of [train] over two datasets put end to end is a pass over the
    first followed by a pass over the second, when the first fills whole
    batches. *)
Theorem train_app (ds1 ds2 : list (Sample * nat)) (bs k : nat)
    (st : Model * Optimizer) :
  (0 < bs)%nat -> length ds1 = (k * bs)%nat ->
  train (mkDataLoader (ds1 ++ ds2) bs) st
  = train (mkDataLoader ds2 bs) (train (mkDataLoader ds1 bs) st).
Proof.
  intros Hbs Hlen. unfold train, batches. cbn [dataset loader_batch_size].
  rewrite (chunks_app bs Hbs k ds1 ds2 Hlen), map_app, fold_left_app.
  reflexivity.
Qed.

(** X11: the keys of the search space of [main.ipynb] are exactly the keys of the
    trial script's [params], so an assignment that gives a value to exactly
    the parameters of the search space replaces every default: after the
    update, [params] is the assignment. *)
Theorem search_space_covers_params :
  dom search_space = dom params
  /\ forall a : gmap string PyVal,
       dom a = dom search_space -> update params a = a.
Proof.
  assert (Hdom : dom search_space = dom params).
  { unfold search_space, params. rewrite !dom_insert_L, !dom_empty_L.
    reflexivity. }
  split; [exact Hdom|].
  intros a Ha. apply map_eq. intros key. rewrite update_lookup.
  destruct (a !! key) eqn:Ea; [reflexivity|].
  apply not_elem_of_dom. apply not_elem_of_dom in Ea. congruence.
Qed.

End LoaderProperties.

(** ** The further properties on the example environment *)




Lemma epoch_report_follows_training_witness :
  fst (trace ∅ (@main example_env)) !! 2%nat
  = Some (CallReportIntermediate (3 # 3)).
Proof.
  assert (Hne : @test_data example_env <> []) by discriminate.
  assert (Ht : (1 < epochs)%nat) by (unfold epochs; lia).
  exact (@epoch_report_follows_training example_env ∅ 1 Hne Ht).
Defined.

Lemma untrained_reports_are_constant_witness :
  trace ∅ (@main (with_data example_env [] [(0, 0); (1, 1); (2, 1)]%nat))
  = (CallGetNextParameter
       :: replicate 5 (CallReportIntermediate (2 # 3))
       ++ [CallReportFinal (2 # 3)],
     inr tt).
Proof.
  assert (Hne : @test_data
                  (with_data example_env [] [(0, 0); (1, 1); (2, 1)]%nat)
                <> []) by discriminate.
  exact (@untrained_reports_are_constant
           (with_data example_env [] [(0, 0); (1, 1); (2, 1)]%nat)
           ∅ eq_refl Hne).
Defined.

Lemma missing_hyperparameter_raises_witness :
  trace ∅ (@train_and_report example_env {["features" := PyInt 128]})
  = ([], inl (KeyError "lr")).
Proof.
  destruct (@missing_hyperparameter_raises example_env ∅
              {["features" := PyInt 128]}) as (_ & Hlr & _).
  apply Hlr; [eexists|]; reflexivity.
Defined.

Lemma batches_partition_witness :
  length (batches (mkDataLoader [(0, 0); (1, 1); (2, 0)]%nat 2)) = 2%nat.
Proof.
  assert (Hbs : (0 < 2)%nat) by lia.
  destruct (@batches_partition example_env
              (mkDataLoader [(0, 0); (1, 1); (2, 0)]%nat 2) Hbs)
    as (_ & _ & _ & Hcount).
  exact Hcount.
Defined.

Lemma train_app_witness :
  @train example_env (mkDataLoader ([(0, 0); (1, 1)] ++ [(2, 0)])%nat 2)
    (O, tt)
  = @train example_env (mkDataLoader [(2, 0)]%nat 2)
      (@train example_env (mkDataLoader [(0, 0); (1, 1)]%nat 2) (O, tt)).
Proof.
  apply (@train_app example_env [(0, 0); (1, 1)]%nat [(2, 0)]%nat 2 1 (O, tt)).
  - lia.
  - reflexivity.
Defined.

Lemma search_space_covers_params_witness :
  update params
    (<["features" := PyInt 128]>
       (<["lr" := PyFloat (1 # 100)]>
          (<["momentum" := PyFloat (1 # 2)]> ∅)))
  = <["features" := PyInt 128]>
      (<["lr" := PyFloat (1 # 100)]>
         (<["momentum" := PyFloat (1 # 2)]> ∅)).
Proof.
  destruct search_space_covers_params as [_ Hcover].
  apply Hcover. unfold search_space.
  rewrite !dom_insert_L, !dom_empty_L. reflexivity.
Defined.

(** ** What of the assignment the script uses *)

Section AssignmentProperties.
Context {env : Torch}.

Lemma initial_agree (P P' : gmap string PyVal) :
  P !! "features" = P' !! "features" -> P !! "lr" = P' !! "lr" ->
  P !! "momentum" = P' !! "momentum" -> initial P = initial P'.
Proof. intros Hf Hl Hm. unfold initial. rewrite Hf, Hl, Hm. reflexivity. Qed.

(** X12: the run depends on the assignment only through 'features', 'lr' and
    'momentum': two assignments that agree on these three keys give the
    same calls after [get_next_parameter] and the same outcome, whatever
    other keys they hold. *)
Theorem other_keys_are_ignored (a a' : gmap string PyVal) :
  a !! "features" = a' !! "features" -> a !! "lr" = a' !! "lr" ->
  a !! "momentum" = a' !! "momentum" ->
  trace a main = trace a' main.
Proof.
  intros Hf Hl Hm.
  assert (Hinit : initial (update params a) = initial (update params a')).
  { apply initial_agree; rewrite !update_lookup;
      [rewrite Hf | rewrite Hl | rewrite Hm]; reflexivity. }
  destruct (trace_main_cases a) as [[He Ht]|[Hne (v & Hv & Ht)]];
    destruct (trace_main_cases a') as [[He' Ht']|[Hne' (v' & Hv' & Ht')]];
    congruence.
Qed.

End AssignmentProperties.

Lemma other_keys_are_ignored_witness :
  trace {["batch" := PyInt 32]} (@main example_env)
  = trace ∅ (@main example_env).
Proof.
  apply (@other_keys_are_ignored example_env {["batch" := PyInt 32]} ∅);
    reflexivity.
Defined.
